(** * Watchmate mock weather provider (tools/mock_weather_provider.py)

    A shallow embedding of the mock D-Bus weather service and the
    properties its specification states about it.

    Modelling conventions.
    - Python floats are modelled by exact rationals ([Q]); every float the
      program handles stays far from overflow (|x| < 64). The theorems
      about temperatures state orders and closed ranges with representable
      ends, which rounding to nearest preserves; exact distances between
      two computed temperatures hold of the rationals only and are left
      to the lemmas.
    - The [random] module is an oracle: a tape of raw draws and a cursor.
      [random.random()] turns one raw draw into a multiple of 2^-53 in
      [0, 1); [_randbelow n] turns one raw draw into a number below [n].
      [uniform], [choice] and [randint] are written as in the library
      ([a + (b - a) * random()], [seq[_randbelow(len(seq))]],
      [a + _randbelow(b - a + 1)]).
    - The wall clock is a number of microseconds since the epoch, the
      resolution of [datetime.now()]; [int(datetime.now().timestamp())]
      truncates it to whole seconds.
    - [print] appends a line to the standard output of the world; the
      [WeatherUpdated] signal appends its argument to the list of emitted
      signals; [bus.publish] appends to the list of registrations. *)

From Stdlib Require Import ZArith NArith QArith Qround List String Ascii Bool Lia Lqa.
From Stdlib Require Import Sorted.
Import ListNotations.
Local Open Scope string_scope.
Local Open Scope Z_scope.

(** ** A state monad for the effects of the script *)

Definition ST (S A : Type) : Type := S -> A * S.

Definition ret {S A} (a : A) : ST S A := fun s => (a, s).

Definition bind {S A B} (m : ST S A) (k : A -> ST S B) : ST S B :=
  fun s => let (a, s') := m s in k a s'.

Declare Scope st_scope.
Delimit Scope st_scope with st.
Notation "x <- m ;; k" := (bind m (fun x => k))
  (at level 100, m at next level, right associativity) : st_scope.
Notation "m ;; k" := (bind m (fun _ => k))
  (at level 100, right associativity) : st_scope.

(** ** D-Bus values *)

(** [GLib.Variant] with the type strings the script uses:
    's', 'd', 'x', 'q' and 'aa{sv}'. *)
#[warnings="-register-all"]
Inductive Variant : Type :=
| Vs (s : string)
| Vd (x : Q)
| Vx (n : Z)
| Vq (n : Z)
| Vaasv (items : list (list (string * Variant))).

(** A Python dict literal with string keys, in insertion order. *)
Definition dict : Type := list (string * Variant).

Fixpoint lookup (k : string) (d : dict) : option Variant :=
  match d with
  | [] => None
  | (k', v) :: d' => if String.eqb k k' then Some v else lookup k d'
  end.

(** What the service sends back to a caller. *)
Inductive reply : Type :=
| CurrentWeather (weather : dict)
| Forecast (forecast : dict).

(** ** The ambient world: generator, clock, console, bus *)

(** One piece of a printed line: literal text, a float printed with
    [:.1f], an integer, or the help message argparse formats from the
    parser. *)
Inductive piece : Type :=
| Lit (s : string)
| Fixed1 (x : Q)
| Int (n : Z)
| HelpText.

Definition line : Type := list piece.

Record World : Type := mkWorld {
  tape : nat -> N;                 (* raw draws of the generator *)
  cursor : nat;                    (* how many draws were consumed *)
  now_us : Z;                      (* wall clock, microseconds since epoch *)
  stdout : list line;              (* printed lines, oldest first *)
  emitted : list Z;                (* WeatherUpdated arguments, oldest first *)
  registered : list (string * string); (* published (name, object path) *)
  replied : list reply             (* method replies sent, oldest first *)
}.

Definition set_cursor (c : nat) (w : World) : World :=
  mkWorld (tape w) c (now_us w) (stdout w) (emitted w) (registered w) (replied w).

Definition set_now (t : Z) (w : World) : World :=
  mkWorld (tape w) (cursor w) t (stdout w) (emitted w) (registered w) (replied w).

Definition set_stdout (o : list line) (w : World) : World :=
  mkWorld (tape w) (cursor w) (now_us w) o (emitted w) (registered w) (replied w).

Definition set_emitted (e : list Z) (w : World) : World :=
  mkWorld (tape w) (cursor w) (now_us w) (stdout w) e (registered w) (replied w).

Definition set_registered (r : list (string * string)) (w : World) : World :=
  mkWorld (tape w) (cursor w) (now_us w) (stdout w) (emitted w) r (replied w).

Definition set_replied (r : list reply) (w : World) : World :=
  mkWorld (tape w) (cursor w) (now_us w) (stdout w) (emitted w) (registered w) r.

(** The environment lets time pass: the clock only moves forward. *)
Definition elapse (d : N) (w : World) : World :=
  set_now (now_us w + Z.of_N d) w.

(** *** The [random] module *)

Definition two53 : positive := 9007199254740992.

(** The float in [0, 1) that [random.random()] makes of a raw draw. *)
Definition unit_of_raw (k : N) : Q :=
  Qmake (Z.of_N (N.modulo k (Npos two53))) two53.

Definition next_raw : ST World N :=
  fun w => (tape w (cursor w), set_cursor (S (cursor w)) w).

Definition random : ST World Q :=
  (k <- next_raw ;; ret (unit_of_raw k))%st.

Definition uniform (a b : Q) : ST World Q :=
  (r <- random ;; ret (a + (b - a) * r)%Q)%st.

Definition _randbelow (n : nat) : ST World nat :=
  (k <- next_raw ;; ret (N.to_nat (N.modulo k (N.of_nat n))))%st.

(** [random.choice(seq)]; both call sites pass a non-empty constant list,
    so the [IndexError] of an empty sequence cannot arise and [d] is never
    returned (see [nth_below_In]). *)
Definition choice {A} (seq : list A) (d : A) : ST World A :=
  (i <- _randbelow (List.length seq) ;; ret (nth i seq d))%st.

Definition randint (a b : Z) : ST World Z :=
  (i <- _randbelow (Z.to_nat (b - a + 1)) ;; ret (a + Z.of_nat i))%st.

(** *** Clock and console *)

(** [int(datetime.now().timestamp())]: whole seconds, truncated. *)
Definition unix_seconds (us : Z) : Z := Z.quot us 1000000.

Definition timestamp_now : ST World Z :=
  fun w => (unix_seconds (now_us w), w).

Definition print (l : line) : ST World unit :=
  fun w => (tt, set_stdout (stdout w ++ [l]) w).

(** ** Mock weather data *)

Definition CITIES : list string :=
  ["New York"; "London"; "Tokyo"; "Paris"; "Sydney"].

(** (icon code, display label, temperature offset) *)
Definition condition : Type := (string * string * Z)%type.

Definition WEATHER_CONDITIONS : list condition :=
  [ ("clear-sky", "Clear sky", 0);
    ("few-clouds", "Few clouds", 5);
    ("scattered-clouds", "Cloudy", 10);
    ("rain", "Rain", -5);
    ("snow", "Snow", -10);
    ("thunderstorm", "Thunderstorm", 0) ].

Definition icon_of (c : condition) : string := fst (fst c).
Definition label_of (c : condition) : string := snd (fst c).
Definition offset_of (c : condition) : Z := snd c.

(** The six known icon tags. *)
Definition ICON_CODES : list string := map icon_of WEATHER_CONDITIONS.

(** ** The provider object *)

Record MockWeatherProvider : Type := mkProvider {
  location : string;
  base_temp : Q;
  current_condition : condition
}.

(** The object together with the world it lives in. *)
Record Sys : Type := mkSys {
  self : MockWeatherProvider;
  world : World
}.

(** Run a world effect inside the system. *)
Definition io {A} (m : ST World A) : ST Sys A :=
  fun s => let (a, w) := m (world s) in (a, mkSys (self s) w).

Definition read_self : ST Sys MockWeatherProvider :=
  fun s => (self s, s).

Definition set_current_condition (c : condition) : ST Sys unit :=
  fun s => (tt, mkSys (mkProvider (location (self s)) (base_temp (self s)) c)
                      (world s)).

(** [WeatherUpdated(ts)]: the signal goes out on the bus. *)
Definition WeatherUpdated (ts : Z) : ST World unit :=
  fun w => (tt, set_emitted (emitted w ++ [ts]) w).

(** [MockWeatherProvider.__init__]; [location or random.choice(CITIES)]
    draws a city only when no non-empty location was given. *)
Definition __init__ (loc : option string) : ST World MockWeatherProvider :=
  (l <- match loc with
        | Some (String a s) => ret (String a s)
        | _ => choice CITIES "New York"
        end ;;
   b <- uniform 15 25 ;;
   c <- choice WEATHER_CONDITIONS ("clear-sky", "Clear sky", 0) ;;
   print [Lit "Mock Weather Provider initialized for "; Lit l] ;;
   print [Lit "Base temperature: "; Fixed1 b; Lit "°C"] ;;
   print [Lit "Weather condition: "; Lit (label_of c)] ;;
   ret (mkProvider l b c))%st.

Definition GetCurrentWeather : ST Sys dict :=
  (me <- read_self ;;
   let '(condition_code, _, temp_offset) := current_condition me in
   j <- io (uniform (-2) 2) ;;
   let temp := (base_temp me + inject_Z temp_offset + j)%Q in
   lo <- io (uniform 2 5) ;;
   let min_temp := (temp - lo)%Q in
   hi <- io (uniform 2 5) ;;
   let max_temp := (temp + hi)%Q in
   r <- io (randint 0 60) ;;
   let sunrise := 6 * 60 + r in
   t <- io (randint 0 60) ;;
   let sunset := 18 * 60 + t in
   ts <- io timestamp_now ;;
   let weather :=
     [ ("location", Vs (location me));
       ("temperature", Vd temp);
       ("min_temperature", Vd min_temp);
       ("max_temperature", Vd max_temp);
       ("icon_code", Vs condition_code);
       ("timestamp", Vx ts);
       ("sunrise", Vq sunrise);
       ("sunset", Vq sunset) ] in
   io (print [Lit "GetCurrentWeather called: "; Fixed1 temp; Lit "°C, ";
              Lit condition_code]) ;;
   ret weather)%st.

(** [for i in range(n): days.append(body())] *)
Fixpoint for_range {S A} (n : nat) (body : ST S A) (acc : list A)
  : ST S (list A) :=
  match n with
  | O => ret acc
  | S n' => (d <- body ;; for_range n' body (acc ++ [d]))%st
  end.

(** The body of the loop of [GetForecast]. *)
Definition forecast_day : ST Sys dict :=
  (me <- read_self ;;
   c <- io (choice WEATHER_CONDITIONS ("clear-sky", "Clear sky", 0)) ;;
   let '(condition_code, _, temp_offset) := c in
   d <- io (uniform (-5) 5) ;;
   let day_base := (base_temp me + d)%Q in
   lo <- io (uniform 2 5) ;;
   let min_temp := (day_base - lo)%Q in
   hi <- io (uniform 2 5) ;;
   let max_temp := (day_base + hi)%Q in
   ret [ ("min_temperature", Vd min_temp);
         ("max_temperature", Vd max_temp);
         ("icon_code", Vs condition_code) ])%st.

Definition GetForecast : ST Sys dict :=
  (days <- for_range 5 forecast_day [] ;;
   ts <- io timestamp_now ;;
   let forecast := [ ("timestamp", Vx ts); ("days", Vaasv days) ] in
   io (print [Lit "GetForecast called: "; Int (Z.of_nat (List.length days));
              Lit " days"]) ;;
   ret forecast)%st.

Definition update_weather : ST Sys bool :=
  (c <- io (choice WEATHER_CONDITIONS ("clear-sky", "Clear sky", 0)) ;;
   set_current_condition c ;;
   ts <- io timestamp_now ;;
   io (WeatherUpdated ts) ;;
   me <- read_self ;;
   io (print [Lit "Weather updated: "; Lit (label_of (current_condition me))]) ;;
   ret true)%st.

(** ** The process: arguments, bus, timer, main loop *)

Inductive exn : Type :=
| KeyboardInterrupt
| SystemExit (code : Z)
| Exception (msg : string).

Inductive outcome (A : Type) : Type :=
| Return (a : A)
| Raise (e : exn).
Arguments Return {A} a.
Arguments Raise {A} e.

(** The namespace [parser.parse_args()] returns. *)
Record Args : Type := mkArgs {
  arg_provider_name : string;
  arg_location : option string;
  arg_update_interval : Z
}.

(** The command line as [argparse] sees it: rejected (usage message,
    [SystemExit(2)]), a request for help ([SystemExit(0)]), or the values
    given for the three options, [--update-interval] already through
    [int]. *)
Inductive CommandLine : Type :=
| Rejected
| Help
| Options (provider_name location : option string)
          (update_interval : option Z).

Definition parse_args (c : CommandLine) : outcome Args :=
  match c with
  | Rejected => Raise (SystemExit 2)
  | Help => Raise (SystemExit 0)
  | Options n l u =>
      Return (mkArgs (match n with Some s => s | None => "MockWeather" end)
                     l
                     (match u with Some z => z | None => 300 end))
  end.

(** What [parse_args] writes on the standard output: the help message
    when help is asked for, nothing otherwise (the usage message of a
    rejected command line goes to the standard error). *)
Definition parse_args_prints (c : CommandLine) (w : World) : World :=
  match c with
  | Help => snd (print [HelpText] w)
  | _ => w
  end.

(** What the main loop dispatches. [TimerDue] is the timeout source
    becoming ready; a source that was never attached, or was removed, is
    never ready. [Elapse] is time passing while the loop waits. *)
Inductive event : Type :=
| CallGetCurrentWeather
| CallGetForecast
| TimerDue
| Elapse (d : N).

(** How the calls into the libraries and the main loop go in one run of
    the process. [None] is a call that returns. *)
Record Env : Type := mkEnv {
  argv : CommandLine;
  SessionBus : option exn;
  publish : option exn;
  timeout_add_seconds : option exn;
  schedule : list event;
  loop_end : option exn
}.

Definition send (r : reply) : ST World unit :=
  fun w => (tt, set_replied (replied w ++ [r]) w).

(** [loop.run()] over the events of the schedule; [timer] tells whether
    the timeout source is attached. A callback that returns [False]
    removes the source. *)
Fixpoint dispatch (timer : bool) (evs : list event) : ST Sys bool :=
  match evs with
  | [] => ret timer
  | CallGetCurrentWeather :: rest =>
      (d <- GetCurrentWeather ;; io (send (CurrentWeather d)) ;;
       dispatch timer rest)%st
  | CallGetForecast :: rest =>
      (d <- GetForecast ;; io (send (Forecast d)) ;; dispatch timer rest)%st
  | TimerDue :: rest =>
      if timer
      then (again <- update_weather ;; dispatch again rest)%st
      else dispatch timer rest
  | Elapse d :: rest =>
      (io (fun w => (tt, elapse d w)) ;; dispatch timer rest)%st
  end.

(** The lines [main] prints once the service is published. *)
Definition banner (service_name : string) : ST World unit :=
  (print [Lit (String "010" "Mock Weather Provider registered on D-Bus as '");
          Lit service_name; Lit "'"] ;;
   print [Lit "You can now select it in Watchmate's weather provider dropdown."] ;;
   print [Lit (String "010" "Test with:")] ;;
   print [Lit "  busctl --user call "; Lit service_name;
          Lit " / org.freedesktop.Weather GetCurrentWeather"] ;;
   print [Lit (String "010" "Press Ctrl+C to stop."); Lit (String "010" "")])%st.

(** [if args.update_interval > 0: GLib.timeout_add_seconds(...)]: whether
    a timeout source is attached afterwards. *)
Definition attach_timer (env : Env) (args : Args) : outcome bool :=
  if 0 <? arg_update_interval args
  then match timeout_add_seconds env with
       | Some e => Raise e
       | None => Return true
       end
  else Return false.

(** The statements under [try:] in [main]. *)
Definition guarded (env : Env) (args : Args) (service_name : string)
  (w : World) : outcome unit * Sys :=
  let (provider, w1) := __init__ (arg_location args) w in
  match publish env with
  | Some e => (Raise e, mkSys provider w1)
  | None =>
    let w2 := set_registered (registered w1 ++ [(service_name, "/")]) w1 in
    let w3 := snd (banner service_name w2) in
    match attach_timer env args with
    | Raise e => (Raise e, mkSys provider w3)
    | Return timer =>
      let w4 :=
        if timer
        then snd (print [Lit "Weather will update every ";
                         Int (arg_update_interval args);
                         Lit " seconds"; Lit (String "010" "")] w3)
        else w3 in
      let s := snd (dispatch timer (schedule env) (mkSys provider w4)) in
      match loop_end env with
      | Some e => (Raise e, s)
      | None => (Return tt, s)
      end
    end
  end.

Definition stopped_line : line :=
  [Lit (String "010" "Mock Weather Provider stopped.")].

Definition error_line (msg : string) : line := [Lit "Error: "; Lit msg].

(** [main()]: its return value, or the exception that leaves it. The
    provider exists only once the guarded block has been entered. When
    [parse_args] raises, what it printed stays on the standard output. *)
Definition main (env : Env) (w : World) : outcome Z * option MockWeatherProvider * World :=
  match parse_args (argv env) with
  | Raise e => (Raise e, None, parse_args_prints (argv env) w)
  | Return args =>
    match SessionBus env with
    | Some e => (Raise e, None, w)
    | None =>
      let service_name := "org.example." ++ arg_provider_name args in
      let (r, s) := guarded env args service_name w in
      match r with
      | Raise KeyboardInterrupt =>
          (Return 0, Some (self s), snd (print stopped_line (world s)))
      | Raise (Exception msg) =>
          (Return 1, Some (self s), snd (print (error_line msg) (world s)))
      | Raise e => (Raise e, Some (self s), world s)
      | Return _ => (Return 0, Some (self s), world s)
      end
    end
  end.

(** How the process ends. *)
Inductive termination : Type :=
| Exit (status : Z)
| Uncaught (e : exn).

(** [exit(main())]: the return value of [main] is the exit status; a
    [SystemExit] that leaves [main] carries its own status; any other
    exception that leaves [main] reaches the interpreter uncaught. *)
Definition script (env : Env) (w : World) : termination * World :=
  match main env w with
  | (Return n, _, w') => (Exit n, w')
  | (Raise (SystemExit n), _, w') => (Exit n, w')
  | (Raise e, _, w') => (Uncaught e, w')
  end.

(** The exit status of the process. The interpreter ends a process whose
    exception nobody caught with a traceback on the standard error and
    status 1, and one whose [KeyboardInterrupt] nobody caught as a process
    killed by the interrupt signal (status 130 for the shell). *)
Definition exit_status (t : termination) : Z :=
  match t with
  | Exit n => n
  | Uncaught KeyboardInterrupt => 130
  | Uncaught _ => 1
  end.

(** A fresh process: nothing printed, emitted, registered or replied. *)
Definition boot (t : nat -> N) (clock : Z) : World :=
  mkWorld t 0 clock [] [] [] [].

(** ** Reading the tape *)

(** The [i]-th raw draw still to come. *)
Definition draw (w : World) (i : nat) : N := tape w (i + cursor w).

(** The world after [n] more draws were consumed. *)
Definition skip (n : nat) (w : World) : World := set_cursor (n + cursor w) w.

(** What [uniform a b], [_randbelow n] and [choice] make of a raw draw. *)
Definition uniform_of (a b : Q) (k : N) : Q := (a + (b - a) * unit_of_raw k)%Q.

Definition below (n : nat) (k : N) : nat := N.to_nat (N.modulo k (N.of_nat n)).

Definition pick (k : N) : condition :=
  nth (below 6 k) WEATHER_CONDITIONS ("clear-sky", "Clear sky", 0).

Definition current_temp (s : Sys) : Q :=
  (base_temp (self s) + inject_Z (offset_of (current_condition (self s)))
   + uniform_of (-2) 2 (draw (world s) 0))%Q.

(** The entry [GetForecast] appends for one day, from the four draws the
    loop body takes. *)
Definition day_entry (b : Q) (w : World) : dict :=
  [ ("min_temperature",
     Vd (b + uniform_of (-5) 5 (draw w 1) - uniform_of 2 5 (draw w 2))%Q);
    ("max_temperature",
     Vd (b + uniform_of (-5) 5 (draw w 1) + uniform_of 2 5 (draw w 3))%Q);
    ("icon_code", Vs (icon_of (pick (draw w 0)))) ].

(** How many draws [__init__] spends on the city, and the location it
    settles on. *)
Definition city_draws (loc : option string) : nat :=
  match loc with
  | Some (String _ _) => 0%nat
  | _ => 1%nat
  end.

Definition init_location (loc : option string) (w : World) : string :=
  match loc with
  | Some (String a s) => String a s
  | _ => nth (below 5 (draw w 0)) CITIES "New York"
  end.

(** The three temperatures of a report are in order. *)
Definition ordered (weather : dict) : Prop :=
  exists lo t hi : Q,
    lookup "min_temperature" weather = Some (Vd lo) /\
    lookup "temperature" weather = Some (Vd t) /\
    lookup "max_temperature" weather = Some (Vd hi) /\
    (lo <= t)%Q /\ (t <= hi)%Q.


(** A mapping whose icon code is one of the six known tags. *)
Definition tagged (d : dict) : Prop :=
  exists code : string,
    lookup "icon_code" d = Some (Vs code) /\ In code ICON_CODES.

Definition well_tagged (r : reply) : Prop :=
  match r with
  | CurrentWeather weather => tagged weather
  | Forecast forecast =>
      exists days, lookup "days" forecast = Some (Vaasv days) /\
                   Forall tagged days
  end.

(** The stored condition is one of the six rows of the table. *)
Definition known_condition (s : Sys) : Prop :=
  In (current_condition (self s)) WEATHER_CONDITIONS.

(** One turn of the main loop. *)
Definition step (timer : bool) (ev : event) : ST Sys bool :=
  dispatch timer [ev].

(** The first exception of a run, in the order in which [main] makes its
    calls: argument parsing, the connection to the bus, publication, the
    timer when the interval asks for one, the main loop. *)
Definition first_failure (env : Env) : option exn :=
  match parse_args (argv env) with
  | Raise e => Some e
  | Return args =>
    match SessionBus env with
    | Some e => Some e
    | None =>
      match publish env with
      | Some e => Some e
      | None =>
        match attach_timer env args with
        | Raise e => Some e
        | Return _ => loop_end env
        end
      end
    end
  end.

(** The claim about exit codes as the specification states it, at one
    run: status 0 when nothing fails or the user interrupts, the
    interrupt being caught and logged; status 1 when any other error
    occurs during setup or run, the error being caught by [main] and its
    message printed. ([SystemExit] is how argparse ends the process by
    itself; the sentence is not read as being about it.) *)
Definition exit_codes_as_stated (env : Env) (w : World) : Prop :=
  let t := fst (script env w) in
  let out := stdout (snd (script env w)) in
  match first_failure env with
  | None => exit_status t = 0
  | Some KeyboardInterrupt => exit_status t = 0 /\ In stopped_line out
  | Some (Exception msg) => exit_status t = 1 /\ In (error_line msg) out
  | Some (SystemExit _) => True
  end.

(** How the interpreter ends the process when [e] leaves [main]. *)
Definition escapes (e : exn) : termination :=
  match e with
  | SystemExit n => Exit n
  | _ => Uncaught e
  end.

(** A run in which the session bus cannot be reached. *)
Definition no_session_bus : Env :=
  mkEnv (Options None None None)
        (Some (Exception "Could not connect: No such file or directory"))
        None None [] None.

(** The state [__init__] leaves behind, as [main] packs it. *)
Definition started (loc : option string) (w : World) : Sys :=
  mkSys (fst (__init__ loc w)) (snd (__init__ loc w)).

(** A day entry whose two temperatures are in order and lie in the band
    around [b] that the loop of [GetForecast] can produce. *)
Definition day_in_band (b : Q) (entry : dict) : Prop :=
  exists lo hi : Q,
    lookup "min_temperature" entry = Some (Vd lo) /\
    lookup "max_temperature" entry = Some (Vd hi) /\
    (b - 10 <= lo /\ lo <= b + 3)%Q /\
    (b - 3 <= hi /\ hi <= b + 10)%Q /\
    (lo <= hi)%Q.

(** A day entry whose two temperatures are in order. *)
Definition day_ordered (entry : dict) : Prop :=
  exists lo hi : Q,
    lookup "min_temperature" entry = Some (Vd lo) /\
    lookup "max_temperature" entry = Some (Vd hi) /\
    (lo <= hi)%Q.

Definition is_timer (ev : event) : bool :=
  match ev with
  | TimerDue => true
  | _ => false
  end.

(** The replies one turn of the main loop sends. *)
Definition answer (ev : event) (s : Sys) : list reply :=
  match ev with
  | CallGetCurrentWeather => [CurrentWeather (fst (GetCurrentWeather s))]
  | CallGetForecast => [Forecast (fst (GetForecast s))]
  | _ => []
  end.

(** A report of the current weather that names the location [l]. *)
Definition located (l : string) (r : reply) : Prop :=
  match r with
  | CurrentWeather weather => lookup "location" weather = Some (Vs l)
  | Forecast _ => True
  end.

(** The signals emitted so far are in the order of their timestamps and
    none is ahead of the clock. *)
Definition signals_in_order (w : World) : Prop :=
  StronglySorted Z.le (emitted w) /\
  Forall (fun ts => ts <= unix_seconds (now_us w)) (emitted w).

(** The temperature a report gives, when it gives one. *)
Definition temperature_of (weather : dict) : option Q :=
  match lookup "temperature" weather with
  | Some (Vd t) => Some t
  | _ => None
  end.

(** A day entry with both temperatures between 5 and 35 degrees. *)
Definition day_moderate (entry : dict) : Prop :=
  exists lo hi : Q,
    lookup "min_temperature" entry = Some (Vd lo) /\
    lookup "max_temperature" entry = Some (Vd hi) /\
    (5 <= lo /\ lo <= hi /\ hi <= 35)%Q.

(** ** Properties of the generator *)

Lemma unit_of_raw_range (k : N) : (0 <= unit_of_raw k /\ unit_of_raw k < 1)%Q.
Proof.
  unfold unit_of_raw, Qle, Qlt; cbn [Qnum Qden].
  pose proof (N.mod_lt k (Npos two53)) as H.
  assert (Hk : (N.modulo k (Npos two53) < Npos two53)%N) by (apply H; discriminate).
  clear H. revert Hk. generalize (N.modulo k (Npos two53)). intros m Hm.
  split; lia.
Qed.

Lemma uniform_of_range (a b : Q) (k : N) :
  (a <= b)%Q -> (a <= uniform_of a b k /\ uniform_of a b k <= b)%Q.
Proof.
  intros Hab. unfold uniform_of.
  destruct (unit_of_raw_range k) as [H0 H1].
  set (r := unit_of_raw k) in *.
  assert (Hd : (0 <= b - a)%Q) by lra.
  assert (Hp : (0 <= (b - a) * r)%Q) by (apply Qmult_le_0_compat; assumption).
  assert (Hq : (0 <= (b - a) * (1 - r))%Q) by (apply Qmult_le_0_compat; lra).
  split; [lra|].
  assert (Hr : ((b - a) * (1 - r) == (b - a) - (b - a) * r)%Q) by ring.
  rewrite Hr in Hq. lra.
Qed.

(** A raw draw below 2^53 is its own numerator: [random()] reaches every
    multiple of 2^-53 in [0, 1), each from one residue of the raw draw. *)
Lemma unit_of_raw_grid (m : N) :
  (m < Npos two53)%N -> unit_of_raw m = Qmake (Z.of_N m) two53.
Proof.
  intros H. unfold unit_of_raw. rewrite N.mod_small by exact H. reflexivity.
Qed.

(** The lower end of the interval is attained. *)
Lemma uniform_of_low (a b : Q) : (uniform_of a b 0 == a)%Q.
Proof.
  unfold uniform_of. rewrite (unit_of_raw_grid 0) by reflexivity.
  change (Z.of_N 0 # two53)%Q with (0 # two53)%Q.
  assert (Z0 : (0 # two53 == 0)%Q) by reflexivity.
  rewrite Z0. ring.
Qed.

Lemma below_lt (n : nat) (k : N) : (0 < n)%nat -> (below n k < n)%nat.
Proof.
  intros Hn. unfold below.
  pose proof (N.mod_lt k (N.of_nat n)) as H.
  assert (Hk : (N.modulo k (N.of_nat n) < N.of_nat n)%N) by (apply H; lia).
  lia.
Qed.

(** Every index below the size is produced by some raw draw: no member
    of a sequence is out of reach of [choice]. *)
Lemma below_onto (n i : nat) : (i < n)%nat -> below n (N.of_nat i) = i.
Proof.
  intros Hi. unfold below. rewrite N.mod_small by lia. lia.
Qed.

Lemma nth_below_In {A} (seq : list A) (d : A) (k : N) :
  seq <> [] -> In (nth (below (List.length seq) k) seq d) seq.
Proof.
  intros Hne. apply nth_In. apply below_lt.
  destruct seq; [congruence | cbn; lia].
Qed.

Lemma pick_In (k : N) : In (pick k) WEATHER_CONDITIONS.
Proof.
  unfold pick.
  change 6%nat with (List.length WEATHER_CONDITIONS).
  apply nth_below_In. discriminate.
Qed.

Lemma pick_onto (c : condition) :
  In c WEATHER_CONDITIONS -> exists k, pick k = c.
Proof.
  intros Hc. destruct (In_nth _ _ ("clear-sky", "Clear sky", 0) Hc) as [i [Hi Hn]].
  exists (N.of_nat i). unfold pick.
  rewrite below_onto by exact Hi. exact Hn.
Qed.

Lemma icon_of_In (c : condition) :
  In c WEATHER_CONDITIONS -> In (icon_of c) ICON_CODES.
Proof. intros H. unfold ICON_CODES. apply in_map. exact H. Qed.

(** ** What each operation computes, in terms of the tape *)

Lemma GetCurrentWeather_eq (s : Sys) :
  GetCurrentWeather s =
  (let w := world s in
   let temp := current_temp s in
   ( [ ("location", Vs (location (self s)));
       ("temperature", Vd temp);
       ("min_temperature", Vd (temp - uniform_of 2 5 (draw w 1))%Q);
       ("max_temperature", Vd (temp + uniform_of 2 5 (draw w 2))%Q);
       ("icon_code", Vs (icon_of (current_condition (self s))));
       ("timestamp", Vx (unix_seconds (now_us w)));
       ("sunrise", Vq (6 * 60 + (0 + Z.of_nat (below 61 (draw w 3)))));
       ("sunset", Vq (18 * 60 + (0 + Z.of_nat (below 61 (draw w 4))))) ],
     mkSys (self s)
       (set_stdout
          (stdout w ++
           [[Lit "GetCurrentWeather called: "; Fixed1 temp; Lit "°C, ";
             Lit (icon_of (current_condition (self s)))]])
          (skip 5 w)) )).
Proof.
  destruct s as [[l b [[code lab] off]] [t c n o e r rp]].
  reflexivity.
Qed.

Lemma forecast_day_eq (s : Sys) :
  forecast_day s =
  (day_entry (base_temp (self s)) (world s), mkSys (self s) (skip 4 (world s))).
Proof.
  destruct s as [[l b c0] [t c n o e r rp]].
  cbv [forecast_day bind ret io read_self choice _randbelow next_raw uniform
       random self world base_temp tape cursor set_cursor].
  cbv [day_entry pick below uniform_of draw skip world self base_temp tape
       cursor set_cursor Nat.add List.length WEATHER_CONDITIONS].
  destruct (nth _ _ _) as [[code lab] off] eqn:E.
  reflexivity.
Qed.

Lemma GetForecast_eq (s : Sys) :
  GetForecast s =
  (let w := world s in
   let b := base_temp (self s) in
   ( [ ("timestamp", Vx (unix_seconds (now_us w)));
       ("days", Vaasv (map (fun i => day_entry b (skip (4 * i) w))
                           [0; 1; 2; 3; 4]%nat)) ],
     mkSys (self s)
       (set_stdout
          (stdout w ++ [[Lit "GetForecast called: "; Int 5; Lit " days"]])
          (skip 20 w)) )).
Proof.
  unfold GetForecast, bind at 1. cbn [for_range]. unfold bind at 1.
  rewrite forecast_day_eq. cbn [app]. unfold bind at 1.
  rewrite forecast_day_eq. cbn [app]. unfold bind at 1.
  rewrite forecast_day_eq. cbn [app]. unfold bind at 1.
  rewrite forecast_day_eq. cbn [app]. unfold bind at 1.
  rewrite forecast_day_eq. cbn [app].
  destruct s as [[l b c0] [t c n o e r rp]].
  reflexivity.
Qed.

Lemma update_weather_eq (s : Sys) :
  update_weather s =
  (let w := world s in
   let c := pick (draw w 0) in
   ( true,
     mkSys (mkProvider (location (self s)) (base_temp (self s)) c)
       (set_stdout (stdout w ++ [[Lit "Weather updated: "; Lit (label_of c)]])
          (set_emitted (emitted w ++ [unix_seconds (now_us w)])
             (skip 1 w))) )).
Proof.
  destruct s as [[l b c0] [t c n o e r rp]].
  reflexivity.
Qed.

Lemma init_eq (loc : option string) (w : World) :
  __init__ loc w =
  (let k := city_draws loc in
   let l := init_location loc w in
   let b := uniform_of 15 25 (draw w k) in
   let c := pick (draw w (S k)) in
   ( mkProvider l b c,
     set_stdout
       (stdout w ++
        [ [Lit "Mock Weather Provider initialized for "; Lit l];
          [Lit "Base temperature: "; Fixed1 b; Lit "°C"];
          [Lit "Weather condition: "; Lit (label_of c)] ])
       (skip (2 + k) w) )).
Proof.
  destruct w as [t c n o e r rp].
  destruct loc as [[|a s]|];
    cbv [__init__ city_draws init_location bind ret print choice uniform
         random _randbelow next_raw set_stdout set_cursor skip draw pick
         below uniform_of tape cursor now_us stdout emitted registered
         replied Nat.add List.length CITIES WEATHER_CONDITIONS];
    rewrite <- !app_assoc; reflexivity.
Qed.

(** ** GetCurrentWeather *)

(** The temperature band of a report: the spreads are at least 2 and at
    most 5 on either side. *)
Lemma current_weather_band (s : Sys) :
  let t := current_temp s in
  let lo := uniform_of 2 5 (draw (world s) 1) in
  let hi := uniform_of 2 5 (draw (world s) 2) in
  (t - 5 <= t - lo /\ t - lo <= t - 2 /\ t + 2 <= t + hi /\ t + hi <= t + 5)%Q.
Proof.
  cbv zeta.
  destruct (uniform_of_range 2 5 (draw (world s) 1)) as [A B]; [lra|].
  destruct (uniform_of_range 2 5 (draw (world s) 2)) as [C D]; [lra|].
  repeat split; lra.
Qed.

Lemma current_weather_ordered (s : Sys) : ordered (fst (GetCurrentWeather s)).
Proof.
  rewrite GetCurrentWeather_eq. cbv zeta. cbn [fst].
  destruct (current_weather_band s) as [_ [A [B _]]].
  eexists _, _, _.
  split; [reflexivity|]. split; [reflexivity|]. split; [reflexivity|].
  split; lra.
Qed.


(** The three draws of a report are free of each other: whatever raw
    values are asked for, some state of the generator hands exactly these
    to the jitter and the two spreads. *)
Lemma current_weather_draws_free (p : MockWeatherProvider) (k0 k1 k2 : N) :
  exists w : World,
    let weather := fst (GetCurrentWeather (mkSys p w)) in
    let temp := (base_temp p + inject_Z (offset_of (current_condition p))
                 + uniform_of (-2) 2 k0)%Q in
    lookup "temperature" weather = Some (Vd temp) /\
    lookup "min_temperature" weather = Some (Vd (temp - uniform_of 2 5 k1)%Q) /\
    lookup "max_temperature" weather = Some (Vd (temp + uniform_of 2 5 k2)%Q).
Proof.
  exists (boot (fun i => match i with
                         | O => k0 | S O => k1 | _ => k2 end) 0).
  rewrite GetCurrentWeather_eq. repeat split.
Qed.

(** C5. sunrise is in [360, 420] and sunset in [1080, 1140]. *)
Theorem C5_sunrise_sunset_windows (s : Sys) :
  exists sunrise sunset : Z,
    lookup "sunrise" (fst (GetCurrentWeather s)) = Some (Vq sunrise) /\
    lookup "sunset" (fst (GetCurrentWeather s)) = Some (Vq sunset) /\
    360 <= sunrise <= 420 /\ 1080 <= sunset <= 1140.
Proof.
  rewrite GetCurrentWeather_eq. cbv zeta. cbn [fst].
  eexists _, _. split; [reflexivity|]. split; [reflexivity|].
  pose proof (below_lt 61 (draw (world s) 3)).
  pose proof (below_lt 61 (draw (world s) 4)).
  lia.
Qed.

(** C4, as stated: some outcome of the randomness breaks the order of
    min_temperature, temperature and max_temperature. No state of the
    generator does. *)
Lemma C4_no_disordered_report :
  ~ (exists s : Sys, ~ ordered (fst (GetCurrentWeather s))).
Proof.
  intros [s H]. apply H. apply current_weather_ordered.
Qed.

(** C4, amended. Every report of GetCurrentWeather satisfies
    min_temperature <= temperature <= max_temperature: the spread taken
    off the temperature and the spread put on it are never negative. *)
Theorem C4_report_always_ordered (s : Sys) :
  exists lo t hi : Q,
    lookup "min_temperature" (fst (GetCurrentWeather s)) = Some (Vd lo) /\
    lookup "temperature" (fst (GetCurrentWeather s)) = Some (Vd t) /\
    lookup "max_temperature" (fst (GetCurrentWeather s)) = Some (Vd hi) /\
    (lo <= t /\ t <= hi)%Q.
Proof.
  rewrite GetCurrentWeather_eq. cbv zeta. cbn [fst].
  destruct (uniform_of_range 2 5 (draw (world s) 1)) as [A _]; [lra|].
  destruct (uniform_of_range 2 5 (draw (world s) 2)) as [C _]; [lra|].
  eexists _, _, _.
  split; [reflexivity|]. split; [reflexivity|]. split; [reflexivity|].
  split; lra.
Qed.

(** ** GetForecast *)




(** ** update_weather *)

Lemma unix_seconds_mono (a b : Z) : a <= b -> unix_seconds a <= unix_seconds b.
Proof.
  intros H. unfold unix_seconds. apply Z.quot_le_mono; lia.
Qed.

(** C3. A call of update_weather stores a condition of the 6-row table
    (the row the next draw selects), emits exactly one WeatherUpdated
    whose timestamp is the Unix time read during the call, hence between
    the Unix time before the call and the Unix time after it, and returns
    True: the main loop keeps the timer attached. [before] and [after]
    are the time that passes from the reading of the clock before the
    call to the call, and from the call to the reading after it. *)
Theorem C3_update_weather (s : Sys) (before after : N) (rest : list event) :
  let called := mkSys (self s) (elapse before (world s)) in
  let r := fst (update_weather called) in
  let s' := snd (update_weather called) in
  let ts := unix_seconds (now_us (world called)) in
  r = true /\
  current_condition (self s') = pick (draw (world s) 0) /\
  In (current_condition (self s')) WEATHER_CONDITIONS /\
  emitted (world s') = (emitted (world s) ++ [ts])%list /\
  unix_seconds (now_us (world s)) <= ts /\
  ts <= unix_seconds (now_us (elapse after (world s'))) /\
  dispatch true (TimerDue :: rest) called = dispatch true rest s'.
Proof.
  cbv zeta. rewrite update_weather_eq. cbv zeta. cbn [fst snd].
  destruct s as [[l b c0] [t c n o e r rp]].
  cbn [self world current_condition emitted now_us elapse set_now set_stdout
       set_emitted skip set_cursor tape cursor stdout registered replied].
  split; [reflexivity|]. split; [reflexivity|].
  split; [apply pick_In|]. split; [reflexivity|].
  split; [apply unix_seconds_mono; lia|].
  split; [apply unix_seconds_mono; lia|].
  cbn [dispatch]. unfold bind at 1. rewrite update_weather_eq. reflexivity.
Qed.

(** The timestamp of the signal is the clock cut to whole seconds: for a
    clock after the epoch it is at most the time of the call and less than
    a second behind it. *)
Lemma timestamp_within_a_second (us : Z) :
  0 <= us ->
  1000000 * unix_seconds us <= us < 1000000 * unix_seconds us + 1000000.
Proof.
  intros H. unfold unix_seconds.
  rewrite Z.quot_div_nonneg by lia.
  pose proof (Z.mul_div_le us 1000000).
  pose proof (Z.mul_succ_div_gt us 1000000).
  lia.
Qed.

(** Every row of the table can be the one update_weather stores. *)
Lemma update_weather_reaches (p : MockWeatherProvider) (c : condition) :
  In c WEATHER_CONDITIONS ->
  exists w, current_condition (self (snd (update_weather (mkSys p w)))) = c.
Proof.
  intros Hc. destruct (pick_onto c Hc) as [k Hk].
  exists (boot (fun _ => k) 0). rewrite update_weather_eq. exact Hk.
Qed.

(** ** The main loop, one event at a time *)

Lemma dispatch_cons (timer : bool) (ev : event) (rest : list event) (s : Sys) :
  dispatch timer (ev :: rest) s =
  dispatch (fst (step timer ev s)) rest (snd (step timer ev s)).
Proof.
  unfold step.
  destruct ev; cbn [dispatch]; unfold bind, ret.
  - destruct (GetCurrentWeather s) as [d s1].
    destruct (io (send (CurrentWeather d)) s1) as [u s2]. reflexivity.
  - destruct (GetForecast s) as [d s1].
    destruct (io (send (Forecast d)) s1) as [u s2]. reflexivity.
  - destruct timer; [|reflexivity].
    destruct (update_weather s) as [again s1]. reflexivity.
  - destruct (io _ s) as [u s1]. reflexivity.
Qed.

Lemma step_eq (timer : bool) (ev : event) (s : Sys) :
  step timer ev s =
  match ev with
  | CallGetCurrentWeather =>
      let w' := world (snd (GetCurrentWeather s)) in
      (timer,
       mkSys (self s)
         (set_replied
            (replied w' ++ [CurrentWeather (fst (GetCurrentWeather s))]) w'))
  | CallGetForecast =>
      let w' := world (snd (GetForecast s)) in
      (timer,
       mkSys (self s)
         (set_replied (replied w' ++ [Forecast (fst (GetForecast s))]) w'))
  | TimerDue => if timer then update_weather s else (false, s)
  | Elapse d => (timer, mkSys (self s) (elapse d (world s)))
  end.
Proof.
  unfold step. destruct ev; cbn [dispatch]; unfold bind, ret.
  - rewrite GetCurrentWeather_eq. reflexivity.
  - rewrite GetForecast_eq. reflexivity.
  - destruct timer; [|reflexivity].
    rewrite update_weather_eq. reflexivity.
  - reflexivity.
Qed.

(** ** The snapshot and who writes it *)

Lemma step_keeps_place (timer : bool) (ev : event) (s : Sys) :
  location (self (snd (step timer ev s))) = location (self s) /\
  base_temp (self (snd (step timer ev s))) = base_temp (self s).
Proof.
  rewrite step_eq. destruct ev; try (split; reflexivity).
  destruct timer; [rewrite update_weather_eq|]; split; reflexivity.
Qed.

Lemma step_untimed (ev : event) (s : Sys) :
  fst (step false ev s) = false /\
  self (snd (step false ev s)) = self s /\
  emitted (world (snd (step false ev s))) = emitted (world s).
Proof.
  rewrite step_eq. destruct ev; cbv zeta; cbn [fst snd self world].
  - rewrite GetCurrentWeather_eq. repeat split.
  - rewrite GetForecast_eq. repeat split.
  - repeat split.
  - repeat split.
Qed.

Lemma dispatch_keeps_place (evs : list event) :
  forall (timer : bool) (s : Sys),
    location (self (snd (dispatch timer evs s))) = location (self s) /\
    base_temp (self (snd (dispatch timer evs s))) = base_temp (self s).
Proof.
  induction evs as [|ev rest IH]; intros timer s.
  - split; reflexivity.
  - rewrite dispatch_cons.
    destruct (IH (fst (step timer ev s)) (snd (step timer ev s))) as [A B].
    destruct (step_keeps_place timer ev s) as [C D].
    split; congruence.
Qed.

Lemma dispatch_untimed (evs : list event) :
  forall s : Sys,
    self (snd (dispatch false evs s)) = self s /\
    emitted (world (snd (dispatch false evs s))) = emitted (world s).
Proof.
  induction evs as [|ev rest IH]; intros s.
  - split; reflexivity.
  - rewrite dispatch_cons.
    destruct (step_untimed ev s) as [A [B C]].
    rewrite A. destruct (IH (snd (step false ev s))) as [D E].
    split; congruence.
Qed.

(** C7. The snapshot is written by update_weather only. GetCurrentWeather
    and GetForecast leave location, base temperature and condition as
    they were; update_weather leaves location and base temperature as they
    were. So does the main loop over any schedule of events, and while no
    timer is attached it leaves the whole snapshot as it was. *)
Theorem C7_snapshot_frame (s : Sys) (timer : bool) (evs : list event) :
  self (snd (GetCurrentWeather s)) = self s /\
  self (snd (GetForecast s)) = self s /\
  location (self (snd (update_weather s))) = location (self s) /\
  base_temp (self (snd (update_weather s))) = base_temp (self s) /\
  location (self (snd (dispatch timer evs s))) = location (self s) /\
  base_temp (self (snd (dispatch timer evs s))) = base_temp (self s) /\
  self (snd (dispatch false evs s)) = self s.
Proof.
  rewrite GetCurrentWeather_eq, GetForecast_eq, update_weather_eq.
  cbv zeta. cbn [snd self location base_temp].
  destruct (dispatch_keeps_place evs timer s) as [A B].
  destruct (dispatch_untimed evs s) as [C _].
  repeat split; assumption.
Qed.

(** update_weather does write the condition: the frame above is not the
    frame of an operation that changes nothing. *)
Lemma update_weather_writes :
  exists s : Sys,
    current_condition (self (snd (update_weather s))) <>
    current_condition (self s).
Proof.
  exists (mkSys (mkProvider "Paris" 20 ("rain", "Rain", -5))
                (boot (fun _ => 1%N) 0)).
  rewrite update_weather_eq. vm_compute. discriminate.
Qed.

(** ** Icon codes *)

Lemma current_weather_tagged (s : Sys) :
  known_condition s -> tagged (fst (GetCurrentWeather s)).
Proof.
  intros H. rewrite GetCurrentWeather_eq. cbv zeta. cbn [fst].
  eexists. split; [reflexivity|]. apply icon_of_In. exact H.
Qed.

Lemma day_entry_tagged (b : Q) (w : World) : tagged (day_entry b w).
Proof.
  eexists. split; [reflexivity|]. apply icon_of_In. apply pick_In.
Qed.

Lemma forecast_tagged (s : Sys) : well_tagged (Forecast (fst (GetForecast s))).
Proof.
  rewrite GetForecast_eq. cbv zeta. cbn [fst well_tagged].
  eexists. split; [reflexivity|].
  cbn [map]. repeat (constructor; [apply day_entry_tagged|]). constructor.
Qed.

Lemma init_known (loc : option string) (w : World) :
  In (current_condition (fst (__init__ loc w))) WEATHER_CONDITIONS.
Proof.
  rewrite init_eq. cbv zeta. cbn [fst current_condition]. apply pick_In.
Qed.

Lemma step_tagged (timer : bool) (ev : event) (s : Sys) :
  known_condition s ->
  known_condition (snd (step timer ev s)) /\
  exists new : list reply,
    replied (world (snd (step timer ev s))) = (replied (world s) ++ new)%list /\
    Forall well_tagged new.
Proof.
  intros H. rewrite step_eq. destruct ev; cbv zeta; cbn [snd].
  - split; [exact H|].
    exists [CurrentWeather (fst (GetCurrentWeather s))].
    split.
    + rewrite GetCurrentWeather_eq. reflexivity.
    + constructor; [|constructor]. apply current_weather_tagged. exact H.
  - split; [exact H|].
    exists [Forecast (fst (GetForecast s))].
    split.
    + rewrite GetForecast_eq. reflexivity.
    + constructor; [|constructor]. apply forecast_tagged.
  - destruct timer.
    + rewrite update_weather_eq. cbv zeta. cbn [snd]. split.
      * unfold known_condition. cbn [self current_condition]. apply pick_In.
      * exists []. split; [|constructor].
        cbn [world replied set_stdout set_emitted skip set_cursor].
        rewrite app_nil_r. reflexivity.
    + cbn [snd]. split; [exact H|].
      exists []. split; [|constructor]. rewrite app_nil_r. reflexivity.
  - split; [exact H|].
    exists []. split; [|constructor]. rewrite app_nil_r. reflexivity.
Qed.

Lemma dispatch_tagged (evs : list event) :
  forall (timer : bool) (s : Sys),
    known_condition s ->
    known_condition (snd (dispatch timer evs s)) /\
    exists new : list reply,
      replied (world (snd (dispatch timer evs s))) =
        (replied (world s) ++ new)%list /\
      Forall well_tagged new.
Proof.
  induction evs as [|ev rest IH]; intros timer s H.
  - split; [exact H|]. exists []. split; [|constructor].
    cbn [dispatch ret snd]. rewrite app_nil_r. reflexivity.
  - rewrite dispatch_cons.
    destruct (step_tagged timer ev s H) as [H1 [n1 [E1 F1]]].
    destruct (IH (fst (step timer ev s)) (snd (step timer ev s)) H1)
      as [H2 [n2 [E2 F2]]].
    split; [exact H2|].
    exists (n1 ++ n2)%list. split.
    + rewrite E2, E1, app_assoc. reflexivity.
    + apply Forall_app. split; assumption.
Qed.

(** C6. The stored condition is a row of the 6-row table once __init__
    has run and after every operation the main loop dispatches; every
    report of GetCurrentWeather sent from such a state, and every day
    entry of every forecast, carries one of the six icon tags. *)
Theorem C6_icon_codes_known
  (loc : option string) (w : World) (timer : bool) (evs : list event) :
  let started := mkSys (fst (__init__ loc w)) (snd (__init__ loc w)) in
  let s := snd (dispatch timer evs started) in
  known_condition started /\
  known_condition s /\
  tagged (fst (GetCurrentWeather s)) /\
  well_tagged (Forecast (fst (GetForecast s))) /\
  exists sent : list reply,
    replied (world s) = (replied w ++ sent)%list /\ Forall well_tagged sent.
Proof.
  cbv zeta.
  assert (H0 : known_condition (mkSys (fst (__init__ loc w)) (snd (__init__ loc w))))
    by apply init_known.
  destruct (dispatch_tagged evs timer _ H0) as [H1 [sent [E F]]].
  split; [exact H0|]. split; [exact H1|].
  split; [apply current_weather_tagged; exact H1|].
  split; [apply forecast_tagged|].
  exists sent. split; [|exact F].
  rewrite E. rewrite init_eq. reflexivity.
Qed.

(** The six tags, spelled out. *)
Lemma ICON_CODES_eq :
  ICON_CODES = ["clear-sky"; "few-clouds"; "scattered-clouds"; "rain";
                "snow"; "thunderstorm"].
Proof. reflexivity. Qed.

(** ** The process *)

Lemma step_keeps_registered (timer : bool) (ev : event) (s : Sys) :
  registered (world (snd (step timer ev s))) = registered (world s).
Proof.
  rewrite step_eq. destruct ev; cbv zeta.
  - rewrite GetCurrentWeather_eq. reflexivity.
  - rewrite GetForecast_eq. reflexivity.
  - destruct timer; [rewrite update_weather_eq|]; reflexivity.
  - reflexivity.
Qed.

Lemma dispatch_keeps_registered (evs : list event) :
  forall (timer : bool) (s : Sys),
    registered (world (snd (dispatch timer evs s))) = registered (world s).
Proof.
  induction evs as [|ev rest IH]; intros timer s.
  - reflexivity.
  - rewrite dispatch_cons, IH. apply step_keeps_registered.
Qed.

Lemma guarded_outcome (env : Env) (args : Args) (name : string) (w : World) :
  fst (guarded env args name w) =
  match publish env with
  | Some e => Raise e
  | None =>
    match attach_timer env args with
    | Raise e => Raise e
    | Return _ => match loop_end env with
                  | Some e => Raise e
                  | None => Return tt
                  end
    end
  end.
Proof.
  unfold guarded. rewrite init_eq. cbv beta iota zeta.
  destruct (publish env); [reflexivity|].
  destruct (attach_timer env args) as [timer|e]; [|reflexivity].
  destruct (loop_end env); reflexivity.
Qed.

Lemma guarded_registered (env : Env) (args : Args) (name : string) (w : World) :
  registered (world (snd (guarded env args name w))) =
  (registered w ++ match publish env with
                   | None => [(name, "/")]
                   | Some _ => []
                   end)%list.
Proof.
  unfold guarded. rewrite init_eq. cbv beta iota zeta.
  destruct (publish env).
  - cbn [snd world]. rewrite app_nil_r. reflexivity.
  - destruct (attach_timer env args) as [timer|e].
    + assert (E : forall s0 : Sys,
                registered (world (snd
                  (match loop_end env with
                   | Some e => (@Raise unit e, s0)
                   | None => (Return tt, s0)
                   end))) = registered (world s0))
        by (intros s0; destruct (loop_end env); reflexivity).
      rewrite E, dispatch_keeps_registered.
      destruct timer; reflexivity.
    + reflexivity.
Qed.

Lemma guarded_emitted_untimed
  (env : Env) (args : Args) (name : string) (w : World) :
  attach_timer env args = Return false ->
  emitted (world (snd (guarded env args name w))) = emitted w.
Proof.
  intros Ha. unfold guarded. rewrite init_eq. cbv beta iota zeta.
  destruct (publish env); [reflexivity|].
  rewrite Ha.
  assert (E : forall s0 : Sys,
            emitted (world (snd
              (match loop_end env with
               | Some e => (@Raise unit e, s0)
               | None => (Return tt, s0)
               end))) = emitted (world s0))
    by (intros s0; destruct (loop_end env); reflexivity).
  rewrite E, (proj2 (dispatch_untimed _ _)). reflexivity.
Qed.

Lemma script_escape (env : Env) (e : exn) (w : World) :
  main env w = (Raise e, None, w) -> script env w = (escapes e, w).
Proof.
  intros H. unfold script. rewrite H. destruct e; reflexivity.
Qed.

Lemma script_connected (env : Env) (args : Args) (w : World) :
  parse_args (argv env) = Return args ->
  SessionBus env = None ->
  script env w =
  (let g := guarded env args ("org.example." ++ arg_provider_name args) w in
   let w' := world (snd g) in
   match fst g with
   | Return _ => (Exit 0, w')
   | Raise KeyboardInterrupt =>
       (Exit 0, set_stdout (stdout w' ++ [stopped_line]) w')
   | Raise (Exception msg) =>
       (Exit 1, set_stdout (stdout w' ++ [error_line msg]) w')
   | Raise (SystemExit n) => (Exit n, w')
   end).
Proof.
  intros Hp Hb. unfold script, main. rewrite Hp, Hb. cbv zeta.
  destruct (guarded env args _ w) as [r s].
  destruct r as [u|[|n|msg]]; reflexivity.
Qed.

Lemma script_registered (env : Env) (args : Args) (w : World) :
  parse_args (argv env) = Return args ->
  registered (snd (script env w)) =
  (registered w ++
   match SessionBus env, publish env with
   | None, None => [(("org.example." ++ arg_provider_name args)%string, "/")]
   | _, _ => []
   end)%list.
Proof.
  intros Hp. destruct (SessionBus env) as [e|] eqn:Hb.
  - rewrite (script_escape env e w).
    + cbn [snd]. rewrite app_nil_r. reflexivity.
    + unfold main. rewrite Hp, Hb. reflexivity.
  - rewrite (script_connected env args w Hp Hb). cbv zeta.
    pose proof (guarded_registered env args
                  ("org.example." ++ arg_provider_name args) w) as G.
    destruct (fst (guarded env args _ w)) as [u|[|n|msg]];
      cbn [snd registered set_stdout]; rewrite G;
      destruct (publish env); reflexivity.
Qed.

Lemma script_emitted_untimed (env : Env) (args : Args) (w : World) :
  parse_args (argv env) = Return args ->
  attach_timer env args = Return false ->
  emitted (snd (script env w)) = emitted w.
Proof.
  intros Hp Ha. destruct (SessionBus env) as [e|] eqn:Hb.
  - rewrite (script_escape env e w); [reflexivity|].
    unfold main. rewrite Hp, Hb. reflexivity.
  - rewrite (script_connected env args w Hp Hb). cbv zeta.
    pose proof (guarded_emitted_untimed env args
                  ("org.example." ++ arg_provider_name args) w Ha) as G.
    destruct (fst (guarded env args _ w)) as [u|[|n|msg]];
      cbn [snd emitted set_stdout]; exact G.
Qed.

(** C8, as stated, fails when the session bus cannot be reached: the
    exception of [SessionBus()] is raised before the [try] of [main], so
    [main] neither catches it nor prints its message. The process ends
    with status 1, by the interpreter. *)
Lemma C8_bus_failure_not_caught :
  ~ exit_codes_as_stated no_session_bus (boot (fun _ => 0%N) 0).
Proof.
  unfold exit_codes_as_stated. cbn.
  intros [_ H]. exact H.
Qed.

(** The same gap for an interrupt that arrives while the bus is being
    reached: it is not caught, the stop message is not printed and the
    status is not 0. *)
Lemma interrupt_before_guard (w : World) :
  let env := mkEnv (Options None None None) (Some KeyboardInterrupt)
                   None None [] None in
  script env w = (Uncaught KeyboardInterrupt, w) /\
  exit_status (fst (script env w)) <> 0.
Proof. split; [reflexivity | discriminate]. Qed.

(** C8, amended. Once the arguments are parsed and the session bus is
    reached, the process exits with status 0 when the guarded block of
    [main] finishes or is interrupted by the user (the interrupt is caught
    and the stop message is the last line printed), and with status 1 when
    the guarded block raises any other [Exception] (caught; "Error: " and
    its message is the last line printed). An exception of argument
    parsing or of the connection to the bus leaves [main] uncaught and
    nothing is printed for it. *)
Theorem C8_exit_codes
  (n l : option string) (u : option Z) (pb tm : option exn)
  (sched : list event) (le : option exn) (e : exn) (w : World) :
  let env := mkEnv (Options n l u) None pb tm sched le in
  let t := fst (script env w) in
  let out := stdout (snd (script env w)) in
  match first_failure env with
  | None => t = Exit 0
  | Some KeyboardInterrupt =>
      t = Exit 0 /\ exists shown, out = (shown ++ [stopped_line])%list
  | Some (Exception msg) =>
      t = Exit 1 /\ exists shown, out = (shown ++ [error_line msg])%list
  | Some (SystemExit c) => t = Exit c
  end /\
  script (mkEnv (Options n l u) (Some e) pb tm sched le) w = (escapes e, w) /\
  script (mkEnv Rejected None pb tm sched le) w = (Exit 2, w).
Proof.
  cbv zeta. split; [|split; [apply script_escape; reflexivity | reflexivity]].
  set (env := mkEnv (Options n l u) None pb tm sched le).
  set (args := mkArgs (match n with Some s => s | None => "MockWeather" end) l
                      (match u with Some z => z | None => 300 end)).
  rewrite (script_connected env args w eq_refl eq_refl). cbv zeta.
  rewrite guarded_outcome.
  unfold first_failure. cbn [parse_args argv env SessionBus].
  fold args. fold env.
  destruct (publish env) as [[|c|msg]|].
  - split; [reflexivity|]. eexists; reflexivity.
  - reflexivity.
  - split; [reflexivity|]. eexists; reflexivity.
  - destruct (attach_timer env args) as [timer|[|c|msg]].
    + destruct (loop_end env) as [[|c|msg]|].
      * split; [reflexivity|]. eexists; reflexivity.
      * reflexivity.
      * split; [reflexivity|]. eexists; reflexivity.
      * reflexivity.
    + split; [reflexivity|]. eexists; reflexivity.
    + reflexivity.
    + split; [reflexivity|]. eexists; reflexivity.
Qed.

(** C9. Started with [--update-interval 0], the process attaches no
    timeout source and emits no WeatherUpdated signal, whatever the bus
    does and whatever the main loop is given to dispatch. *)
Theorem C9_interval_zero_silent
  (n l : option string) (sb pb tm : option exn)
  (sched : list event) (le : option exn) (w : World) :
  let env := mkEnv (Options n l (Some 0)) sb pb tm sched le in
  (exists args, parse_args (argv env) = Return args /\
                arg_update_interval args = 0 /\
                attach_timer env args = Return false) /\
  emitted (snd (script env w)) = emitted w /\
  emitted (snd (script env (boot (tape w) (now_us w)))) = [].
Proof.
  cbv zeta. split; [|split].
  - eexists. split; [reflexivity|]. split; reflexivity.
  - eapply script_emitted_untimed; reflexivity.
  - erewrite script_emitted_untimed; reflexivity.
Qed.

(** With a positive interval the timer does emit: the silence of C9 is
    that of the missing timer, not of the model. *)
Lemma positive_interval_emits :
  emitted (snd (script (mkEnv (Options None None (Some 300)) None None None
                              [Elapse 300000000; TimerDue] None)
                       (boot (fun _ => 0%N) 1700000000000000)))
  = [1700000300].
Proof. vm_compute. reflexivity. Qed.

(** C10. For every provider name [N] the service registers as
    "org.example." followed by [N], at object path "/", once the bus is
    reached and the publication succeeds, and under no other name; with
    the default argument the name is "org.example.MockWeather". *)
Theorem C10_service_name
  (N : string) (l : option string) (u : option Z) (sb pb tm : option exn)
  (sched : list event) (le : option exn) (w : World) :
  registered (snd (script (mkEnv (Options (Some N) l u) sb pb tm sched le) w)) =
    (registered w ++ match sb, pb with
                     | None, None => [(("org.example." ++ N)%string, "/")]
                     | _, _ => []
                     end)%list /\
  registered (snd (script (mkEnv (Options None l u) sb pb tm sched le) w)) =
    (registered w ++ match sb, pb with
                     | None, None => [("org.example.MockWeather", "/")]
                     | _, _ => []
                     end)%list.
Proof.
  split.
  - erewrite script_registered by reflexivity. reflexivity.
  - erewrite script_registered by reflexivity. reflexivity.
Qed.

(** * Further properties of the script *)

(** ** The provider as __init__ makes it *)

Lemma nth_below_cities (k : N) : In (nth (below 5 k) CITIES "New York") CITIES.
Proof.
  change 5%nat with (List.length CITIES). apply nth_below_In. discriminate.
Qed.

(** X1. [location or random.choice(CITIES)]: a non-empty location is kept
    as given and no draw is spent on it; without a location, or with the
    empty string, the location is one of the five cities and one more draw
    is spent. *)
Theorem X1_init_location (a : ascii) (name : string) (w : World) :
  location (fst (__init__ (Some (String a name)) w)) = String a name /\
  cursor (snd (__init__ (Some (String a name)) w)) = (2 + cursor w)%nat /\
  In (location (fst (__init__ None w))) CITIES /\
  cursor (snd (__init__ None w)) = (3 + cursor w)%nat /\
  In (location (fst (__init__ (Some "") w))) CITIES /\
  cursor (snd (__init__ (Some "") w)) = (3 + cursor w)%nat.
Proof.
  rewrite !init_eq. cbv zeta.
  cbn [fst snd location city_draws init_location cursor set_stdout skip
       set_cursor].
  repeat split; apply nth_below_cities.
Qed.

Lemma init_base_range (loc : option string) (w : World) :
  (15 <= base_temp (fst (__init__ loc w)) /\
   base_temp (fst (__init__ loc w)) <= 25)%Q.
Proof.
  rewrite init_eq. cbv zeta. cbn [fst base_temp].
  apply uniform_of_range. lra.
Qed.

Lemma offset_range (c : condition) :
  In c WEATHER_CONDITIONS ->
  (-10 <= inject_Z (offset_of c) /\ inject_Z (offset_of c) <= 10)%Q.
Proof.
  intros H. cbn in H.
  destruct H as [H|[H|[H|[H|[H|[H|[]]]]]]]; subst c;
    cbn [offset_of snd]; unfold inject_Z, Qle; cbn; lia.
Qed.

Lemma started_base_kept
  (loc : option string) (w : World) (timer : bool) (evs : list event) :
  (15 <= base_temp (self (snd (dispatch timer evs (started loc w)))) /\
   base_temp (self (snd (dispatch timer evs (started loc w)))) <= 25)%Q.
Proof.
  rewrite (proj2 (dispatch_keeps_place evs timer (started loc w))).
  apply init_base_range.
Qed.

Lemma started_known
  (loc : option string) (w : World) (timer : bool) (evs : list event) :
  known_condition (snd (dispatch timer evs (started loc w))).
Proof.
  apply dispatch_tagged. apply init_known.
Qed.

(** X2. Whatever the main loop has dispatched since __init__, the report
    of GetCurrentWeather has its temperature in [3, 37], its
    min_temperature at least -2 and its max_temperature at most 42: the
    base stays in [15, 25], the offsets of the table in [-10, 10]. *)
Theorem X2_temperatures_bounded
  (loc : option string) (w : World) (timer : bool) (evs : list event) :
  let s := snd (dispatch timer evs (started loc w)) in
  exists lo t hi : Q,
    lookup "min_temperature" (fst (GetCurrentWeather s)) = Some (Vd lo) /\
    lookup "temperature" (fst (GetCurrentWeather s)) = Some (Vd t) /\
    lookup "max_temperature" (fst (GetCurrentWeather s)) = Some (Vd hi) /\
    (3 <= t /\ t <= 37)%Q /\ (-2 <= lo)%Q /\ (hi <= 42)%Q.
Proof.
  cbv zeta.
  set (s := snd (dispatch timer evs (started loc w))).
  destruct (started_base_kept loc w timer evs) as [B0 B1].
  destruct (offset_range _ (started_known loc w timer evs)) as [O0 O1].
  fold s in B0, B1, O0, O1.
  destruct (uniform_of_range (-2) 2 (draw (world s) 0)) as [J0 J1]; [lra|].
  destruct (current_weather_band s) as [L0 [_ [_ H1]]].
  rewrite GetCurrentWeather_eq. cbv zeta. cbn [fst].
  eexists _, _, _.
  split; [reflexivity|]. split; [reflexivity|]. split; [reflexivity|].
  unfold current_temp in *.
  repeat split; lra.
Qed.

(** ** The forecast *)

Lemma day_entry_in_band (b : Q) (w : World) : day_in_band b (day_entry b w).
Proof.
  destruct (uniform_of_range (-5) 5 (draw w 1)) as [D0 D1]; [lra|].
  destruct (uniform_of_range 2 5 (draw w 2)) as [L0 L1]; [lra|].
  destruct (uniform_of_range 2 5 (draw w 3)) as [H0 H1]; [lra|].
  eexists _, _. split; [reflexivity|]. split; [reflexivity|].
  repeat split; lra.
Qed.

Lemma day_entry_ordered (b : Q) (w : World) : day_ordered (day_entry b w).
Proof.
  destruct (uniform_of_range 2 5 (draw w 2)) as [L0 _]; [lra|].
  destruct (uniform_of_range 2 5 (draw w 3)) as [H0 _]; [lra|].
  eexists _, _. split; [reflexivity|]. split; [reflexivity|]. lra.
Qed.

(** X3. In every forecast, whatever the state of the provider, each of
    the days has min_temperature <= max_temperature: the one is the day
    base less a spread, the other the same day base plus a spread, and no
    spread is negative. *)
Theorem X3_forecast_day_ordered (s : Sys) :
  exists days : list dict,
    lookup "days" (fst (GetForecast s)) = Some (Vaasv days) /\
    Forall day_ordered days.
Proof.
  rewrite GetForecast_eq. cbv zeta. cbn [fst].
  eexists. split; [reflexivity|].
  cbn [map]. repeat (constructor; [apply day_entry_ordered|]). constructor.
Qed.

(** X4. In every report sunrise comes before sunset, by at least 660
    minutes, and both fit the unsigned 16-bit type 'q' they are sent
    as. *)
Theorem X4_sunrise_before_sunset (s : Sys) :
  exists sunrise sunset : Z,
    lookup "sunrise" (fst (GetCurrentWeather s)) = Some (Vq sunrise) /\
    lookup "sunset" (fst (GetCurrentWeather s)) = Some (Vq sunset) /\
    sunrise + 660 <= sunset /\
    0 <= sunrise < 65536 /\ 0 <= sunset < 65536.
Proof.
  rewrite GetCurrentWeather_eq. cbv zeta. cbn [fst].
  eexists _, _. split; [reflexivity|]. split; [reflexivity|].
  pose proof (below_lt 61 (draw (world s) 3)).
  pose proof (below_lt 61 (draw (world s) 4)).
  lia.
Qed.

(** ** Replies of the main loop *)

Lemma step_replied (timer : bool) (ev : event) (s : Sys) :
  replied (world (snd (step timer ev s))) =
  (replied (world s) ++ answer ev s)%list.
Proof.
  rewrite step_eq. destruct ev; cbv zeta; cbn [answer].
  - rewrite GetCurrentWeather_eq. reflexivity.
  - rewrite GetForecast_eq. reflexivity.
  - rewrite app_nil_r.
    destruct timer; [rewrite update_weather_eq|]; reflexivity.
  - rewrite app_nil_r. reflexivity.
Qed.

Section Sent.

(** A property [Inv] of the system that every turn of the loop keeps,
    and a property [P] of replies that holds of what either method
    returns in a state with [Inv]. *)
Variable Inv : Sys -> Prop.
Variable P : reply -> Prop.

Hypothesis Inv_step :
  forall timer ev s, Inv s -> Inv (snd (step timer ev s)).
Hypothesis P_current :
  forall s, Inv s -> P (CurrentWeather (fst (GetCurrentWeather s))).
Hypothesis P_forecast :
  forall s, Inv s -> P (Forecast (fst (GetForecast s))).

Lemma answer_sent (ev : event) (s : Sys) : Inv s -> Forall P (answer ev s).
Proof.
  intros H. destruct ev; cbn [answer]; repeat constructor; auto.
Qed.

Lemma dispatch_sent (evs : list event) :
  forall (timer : bool) (s : Sys),
    Inv s ->
    Inv (snd (dispatch timer evs s)) /\
    exists sent : list reply,
      replied (world (snd (dispatch timer evs s))) =
        (replied (world s) ++ sent)%list /\
      Forall P sent.
Proof.
  induction evs as [|ev rest IH]; intros timer s H.
  - split; [exact H|]. exists []. split; [|constructor].
    cbn [dispatch ret snd]. rewrite app_nil_r. reflexivity.
  - rewrite dispatch_cons.
    destruct (IH (fst (step timer ev s)) (snd (step timer ev s))
                 (Inv_step timer ev s H)) as [H2 [n2 [E2 F2]]].
    split; [exact H2|].
    exists (answer ev s ++ n2)%list. split.
    + rewrite E2, step_replied, app_assoc. reflexivity.
    + apply Forall_app. split; [apply answer_sent; exact H | exact F2].
Qed.

End Sent.

(** ** The timer *)

Lemma step_timed (ev : event) (s : Sys) :
  fst (step true ev s) = true /\
  emitted (world (snd (step true ev s))) =
    (emitted (world s) ++
     if is_timer ev then [unix_seconds (now_us (world s))] else [])%list.
Proof.
  rewrite step_eq. destruct ev; cbv zeta; cbn [is_timer fst snd].
  - rewrite GetCurrentWeather_eq, app_nil_r. split; reflexivity.
  - rewrite GetForecast_eq, app_nil_r. split; reflexivity.
  - rewrite update_weather_eq. split; reflexivity.
  - rewrite app_nil_r. split; reflexivity.
Qed.

(** X6. Once attached the timer is never removed, and every time it is
    due exactly one WeatherUpdated goes out: over any schedule the number
    of signals grows by the number of timer turns, and the earlier signals
    stay as they were. *)
Theorem X6_timer_keeps_firing (evs : list event) (s : Sys) :
  fst (dispatch true evs s) = true /\
  exists fired : list Z,
    emitted (world (snd (dispatch true evs s))) =
      (emitted (world s) ++ fired)%list /\
    List.length fired = List.length (filter is_timer evs).
Proof.
  revert s. induction evs as [|ev rest IH]; intros s.
  - split; [reflexivity|]. exists []. split; [|reflexivity].
    cbn [dispatch ret snd]. rewrite app_nil_r. reflexivity.
  - rewrite dispatch_cons.
    destruct (step_timed ev s) as [T E1]. rewrite T.
    destruct (IH (snd (step true ev s))) as [T2 [fired [E2 L2]]].
    split; [exact T2|].
    exists ((if is_timer ev then [unix_seconds (now_us (world s))] else [])
            ++ fired)%list.
    split.
    + rewrite E2, E1, app_assoc. reflexivity.
    + rewrite length_app, L2. cbn [filter].
      destruct (is_timer ev); reflexivity.
Qed.

(** ** From the main loop to the process *)

(** The guarded block of [main] ends in the state the main loop leaves,
    started on the provider of __init__ in a world with the signals, the
    clock and the replies of the beginning; the loop runs over the
    schedule only if publication and timer registration went well. *)
Lemma guarded_run (env : Env) (args : Args) (name : string) (w : World) :
  exists (timer : bool) (evs : list event) (s0 : Sys),
    snd (guarded env args name w) = snd (dispatch timer evs s0) /\
    self s0 = fst (__init__ (arg_location args) w) /\
    emitted (world s0) = emitted w /\
    now_us (world s0) = now_us w /\
    replied (world s0) = replied w /\
    (evs = [] \/
     (publish env = None /\ attach_timer env args = Return timer /\
      evs = schedule env)).
Proof.
  unfold guarded. rewrite init_eq. cbv beta iota zeta.
  destruct (publish env) as [e|] eqn:Hp.
  - exists false, [], (snd (@Raise unit e, started (arg_location args) w)).
    unfold started. rewrite init_eq.
    repeat split; try reflexivity. left; reflexivity.
  - destruct (attach_timer env args) as [timer|e] eqn:Ha.
    + eexists timer, (schedule env), _.
      split; [destruct (loop_end env); reflexivity|].
      split; [reflexivity|].
      split; [destruct timer; reflexivity|].
      split; [destruct timer; reflexivity|].
      split; [destruct timer; reflexivity|].
      right. repeat split.
    + eexists false, [], _.
      split; [reflexivity|].
      repeat split; try reflexivity. left; reflexivity.
Qed.

(** The process ends in the world it began in, or in the world the guarded
    block leaves, but for the last line printed. *)
Lemma script_run (env : Env) (w : World) :
  exists w' : World,
    emitted (snd (script env w)) = emitted w' /\
    now_us (snd (script env w)) = now_us w' /\
    replied (snd (script env w)) = replied w' /\
    (w' = w \/
     exists args,
       parse_args (argv env) = Return args /\ SessionBus env = None /\
       w' = world (snd (guarded env args
                          ("org.example." ++ arg_provider_name args) w))).
Proof.
  destruct (parse_args (argv env)) as [args|e] eqn:Hp.
  - destruct (SessionBus env) as [e|] eqn:Hb.
    + exists w. rewrite (script_escape env e w).
      * repeat split; try reflexivity. left; reflexivity.
      * unfold main. rewrite Hp, Hb. reflexivity.
    + exists (world (snd (guarded env args
                            ("org.example." ++ arg_provider_name args) w))).
      rewrite (script_connected env args w Hp Hb). cbv zeta.
      split; [destruct (fst (guarded env args _ w)) as [u|[|n|msg]]; reflexivity|].
      split; [destruct (fst (guarded env args _ w)) as [u|[|n|msg]]; reflexivity|].
      split; [destruct (fst (guarded env args _ w)) as [u|[|n|msg]]; reflexivity|].
      right. exists args. repeat split.
  - exists w. unfold script, main. rewrite Hp.
    destruct (argv env); destruct e;
      repeat split; try reflexivity; left; reflexivity.
Qed.

(** ** Timestamps of the signals *)

Lemma sorted_snoc (l : list Z) (x : Z) :
  StronglySorted Z.le l -> Forall (fun t => t <= x) l ->
  StronglySorted Z.le (l ++ [x]).
Proof.
  induction l as [|a l IH]; intros Hs Hf.
  - repeat constructor.
  - inversion Hs as [|a' l' Hs' Ha]; subst.
    inversion Hf as [|a' l' Hax Hf']; subst.
    cbn [app]. constructor.
    + apply IH; assumption.
    + apply Forall_app. split; [exact Ha|]. repeat constructor. exact Hax.
Qed.

Lemma in_order_later (w w' : World) :
  emitted w' = emitted w -> now_us w <= now_us w' ->
  signals_in_order w -> signals_in_order w'.
Proof.
  intros He Hn [Hs Hf]. unfold signals_in_order. rewrite He.
  split; [exact Hs|].
  eapply Forall_impl; [|exact Hf].
  cbv beta. intros ts Hts.
  pose proof (unix_seconds_mono _ _ Hn). lia.
Qed.

Lemma step_in_order (timer : bool) (ev : event) (s : Sys) :
  signals_in_order (world s) ->
  signals_in_order (world (snd (step timer ev s))).
Proof.
  intros H. rewrite step_eq. destruct ev; cbv zeta; cbn [snd world].
  - apply (in_order_later (world s)); [| |exact H];
      rewrite GetCurrentWeather_eq; cbn; [reflexivity|lia].
  - apply (in_order_later (world s)); [| |exact H];
      rewrite GetForecast_eq; cbn; [reflexivity|lia].
  - destruct timer; [|exact H].
    rewrite update_weather_eq. cbv zeta. cbn [snd world].
    destruct H as [Hs Hf]. split;
      cbn [emitted now_us set_stdout set_emitted skip set_cursor].
    + apply sorted_snoc; assumption.
    + apply Forall_app. split; [exact Hf|]. repeat constructor. lia.
  - apply (in_order_later (world s)); [reflexivity| |exact H].
    cbn [elapse set_now now_us]. lia.
Qed.

Lemma dispatch_in_order (evs : list event) :
  forall (timer : bool) (s : Sys),
    signals_in_order (world s) ->
    signals_in_order (world (snd (dispatch timer evs s))).
Proof.
  induction evs as [|ev rest IH]; intros timer s H.
  - exact H.
  - rewrite dispatch_cons. apply IH. apply step_in_order. exact H.
Qed.

(** X7. Over a whole run of the process the WeatherUpdated signals go
    out with timestamps that never decrease, and none carries a timestamp
    later than the Unix time at the end of the run. *)
Theorem X7_signal_timestamps_ordered (env : Env) (t : nat -> N) (clock : Z) :
  let w' := snd (script env (boot t clock)) in
  StronglySorted Z.le (emitted w') /\
  Forall (fun ts => ts <= unix_seconds (now_us w')) (emitted w').
Proof.
  cbv zeta.
  assert (H0 : signals_in_order (boot t clock))
    by (split; constructor).
  destruct (script_run env (boot t clock)) as [w' [He [Hn [_ Hw]]]].
  rewrite He, Hn. change (signals_in_order w').
  destruct Hw as [->|[args [_ [_ ->]]]]; [exact H0|].
  destruct (guarded_run env args ("org.example." ++ arg_provider_name args)
              (boot t clock))
    as [timer [evs [s0 [E [_ [Ee [En _]]]]]]].
  rewrite E. apply dispatch_in_order.
  apply (in_order_later (boot t clock)); [exact Ee|lia|exact H0].
Qed.

(** ** Runs without a timer, runs without a loop *)

(** X8. An interval that is not positive attaches no timer: with
    [--update-interval u] and [u <= 0] the process emits no WeatherUpdated
    signal, whatever it is given to dispatch. *)
Theorem X8_nonpositive_interval_silent
  (u : Z) (n l : option string) (sb pb tm : option exn)
  (sched : list event) (le : option exn) (w : World) :
  u <= 0 ->
  emitted (snd (script (mkEnv (Options n l (Some u)) sb pb tm sched le) w)) =
  emitted w.
Proof.
  intros Hu. eapply script_emitted_untimed; [reflexivity|].
  unfold attach_timer. cbn [arg_update_interval].
  destruct (0 <? u) eqn:E; [|reflexivity].
  apply Z.ltb_lt in E. lia.
Qed.

Lemma X8_nonpositive_interval_silent_witness :
  -5 <= 0 /\
  emitted (snd (script (mkEnv (Options None None (Some (-5))) None None None
                              [TimerDue; CallGetForecast; TimerDue] None)
                       (boot (fun _ => 3%N) 1700000000000000))) =
  emitted (boot (fun _ => 3%N) 1700000000000000).
Proof.
  split; [lia|].
  apply (X8_nonpositive_interval_silent (-5)). lia.
Defined.

Lemma guarded_idle (env : Env) (args : Args) (name : string) (w : World) :
  publish env <> None \/ (exists e, attach_timer env args = Raise e) ->
  replied (world (snd (guarded env args name w))) = replied w /\
  emitted (world (snd (guarded env args name w))) = emitted w.
Proof.
  intros H.
  destruct (guarded_run env args name w)
    as [timer [evs [s0 [E [_ [Ee [_ [Er Hr]]]]]]]].
  assert (Hn : evs = []).
  { destruct Hr as [Hr|[Hp [Ha _]]]; [exact Hr|].
    destruct H as [H|[e H]]; [contradiction | congruence]. }
  rewrite E, Hn. cbn [dispatch ret snd]. split; assumption.
Qed.

(** X9. The main loop runs only after the whole setup went well. When the
    session bus cannot be reached, when publication fails, or when the
    timer cannot be registered, no method call is ever answered and no
    signal is emitted, whatever the schedule holds. *)
Theorem X9_failed_setup_serves_nothing
  (c : CommandLine) (n l : option string) (u : positive)
  (sb pb tm : option exn)
  (e : exn) (sched : list event) (le : option exn) (w : World) :
  let quiet env := replied (snd (script env w)) = replied w /\
                   emitted (snd (script env w)) = emitted w in
  quiet (mkEnv c (Some e) pb tm sched le) /\
  quiet (mkEnv c None (Some e) tm sched le) /\
  quiet (mkEnv (Options n l (Some (Z.pos u))) sb pb (Some e) sched le).
Proof.
  cbv zeta.
  assert (Q : forall env,
            (forall args, parse_args (argv env) = Return args ->
                          SessionBus env = None ->
                          publish env <> None \/
                          exists e', attach_timer env args = Raise e') ->
            replied (snd (script env w)) = replied w /\
            emitted (snd (script env w)) = emitted w).
  { intros env Hf.
    destruct (script_run env w) as [w' [He [_ [Hr Hw]]]].
    rewrite He, Hr.
    destruct Hw as [->|[args [Hp [Hb ->]]]]; [split; reflexivity|].
    apply guarded_idle. apply Hf; assumption. }
  split; [|split]; apply Q; intros args Hp Hb.
  - discriminate Hb.
  - left. discriminate.
  - right. exists e. cbn in Hp. injection Hp as <-.
    unfold attach_timer. cbn [arg_update_interval timeout_add_seconds].
    reflexivity.
Qed.

(** ** What the reports show of the snapshot *)

Lemma step_keeps_location (l : string) (timer : bool) (ev : event) (s : Sys) :
  location (self s) = l -> location (self (snd (step timer ev s))) = l.
Proof.
  intros H. rewrite (proj1 (step_keeps_place timer ev s)). exact H.
Qed.

Lemma current_weather_located (l : string) (s : Sys) :
  location (self s) = l ->
  located l (CurrentWeather (fst (GetCurrentWeather s))).
Proof.
  intros H. rewrite GetCurrentWeather_eq. cbn. rewrite H. reflexivity.
Qed.

(** X10. Started with [--location] and a non-empty name, the process
    names that location in every report of the current weather it sends,
    from the first call to the last. *)
Theorem X10_location_in_every_report
  (a : ascii) (name : string) (n : option string) (u : option Z)
  (sb pb tm : option exn) (sched : list event) (le : option exn) (w : World) :
  let env := mkEnv (Options n (Some (String a name)) u) sb pb tm sched le in
  exists sent : list reply,
    replied (snd (script env w)) = (replied w ++ sent)%list /\
    Forall (located (String a name)) sent.
Proof.
  cbv zeta.
  set (env := mkEnv (Options n (Some (String a name)) u) sb pb tm sched le).
  destruct (script_run env w) as [w' [_ [_ [Hr Hw]]]].
  rewrite Hr.
  destruct Hw as [->|[args [Hp [_ ->]]]].
  - exists []. split; [rewrite app_nil_r; reflexivity | constructor].
  - destruct (guarded_run env args ("org.example." ++ arg_provider_name args) w)
      as [timer [evs [s0 [E [Hs [_ [_ [Er _]]]]]]]].
    rewrite E, <- Er.
    apply (dispatch_sent (fun s => location (self s) = String a name)
             (located (String a name))).
    + intros t ev s. apply step_keeps_location.
    + intros s. apply current_weather_located.
    + intros s _. exact I.
    + rewrite Hs. cbn in Hp. injection Hp as <-.
      cbn [arg_location]. rewrite init_eq. reflexivity.
Qed.

Lemma temperature_of_current (s : Sys) :
  temperature_of (fst (GetCurrentWeather s)) = Some (current_temp s).
Proof. rewrite GetCurrentWeather_eq. reflexivity. Qed.

(** X11. While no timer is attached, two reports of the current
    temperature are at most 4 degrees apart, however many calls were
    answered and however much time passed between them: base and condition
    stay, only the jitter of [-2, 2] is drawn again. *)
Theorem X11_polls_within_four_degrees (s : Sys) (evs : list event) :
  exists t1 t2 : Q,
    temperature_of (fst (GetCurrentWeather s)) = Some t1 /\
    temperature_of
      (fst (GetCurrentWeather (snd (dispatch false evs s)))) = Some t2 /\
    (t1 - t2 <= 4 /\ t2 - t1 <= 4)%Q.
Proof.
  exists (current_temp s), (current_temp (snd (dispatch false evs s))).
  split; [apply temperature_of_current|].
  split; [apply temperature_of_current|].
  unfold current_temp.
  rewrite (proj1 (dispatch_untimed evs s)).
  destruct (uniform_of_range (-2) 2 (draw (world s) 0)) as [A B]; [lra|].
  destruct (uniform_of_range (-2) 2
              (draw (world (snd (dispatch false evs s))) 0)) as [C D]; [lra|].
  split; lra.
Qed.

(** X12. The forecast does not look at the current condition nor at the
    location: two providers with the same base temperature give the same
    forecast from the same generator and clock. *)
Theorem X12_forecast_ignores_condition
  (l1 l2 : string) (b : Q) (c1 c2 : condition) (w : World) :
  fst (GetForecast (mkSys (mkProvider l1 b c1) w)) =
  fst (GetForecast (mkSys (mkProvider l2 b c2) w)) /\
  world (snd (GetForecast (mkSys (mkProvider l1 b c1) w))) =
  world (snd (GetForecast (mkSys (mkProvider l2 b c2) w))).
Proof.
  rewrite !GetForecast_eq. split; reflexivity.
Qed.

Lemma day_band_moderate (b : Q) (entry : dict) :
  (15 <= b /\ b <= 25)%Q -> day_in_band b entry -> day_moderate entry.
Proof.
  intros [B0 B1] [lo [hi [E1 [E2 [[L0 L1] [[H0 H1] G]]]]]].
  exists lo, hi. split; [exact E1|]. split; [exact E2|].
  repeat split; lra.
Qed.

(** X13. Whatever the main loop has dispatched since __init__, every day
    of a forecast has 5 <= min_temperature <= max_temperature <= 35. *)
Theorem X13_forecast_moderate
  (loc : option string) (w : World) (timer : bool) (evs : list event) :
  let s := snd (dispatch timer evs (started loc w)) in
  exists days : list dict,
    lookup "days" (fst (GetForecast s)) = Some (Vaasv days) /\
    Forall day_moderate days.
Proof.
  cbv zeta.
  pose proof (started_base_kept loc w timer evs) as B.
  set (s := snd (dispatch timer evs (started loc w))) in *.
  rewrite GetForecast_eq. cbv zeta. cbn [fst].
  eexists. split; [reflexivity|].
  cbn [map].
  repeat (constructor;
          [apply (day_band_moderate (base_temp (self s)));
           [exact B | apply day_entry_in_band]|]).
  constructor.
Qed.
